(** * Regional pricing / estimation engine of pave-ai-estimator

    Shallow embedding of [src/src/lib/calculationEngine.ts]
    ([AdvancedCalculationEngine]).

    Modelling conventions:
    - JavaScript numbers are modelled as exact rationals [Q]; the finite,
      well-typed values the engine computes with are all rationals, and
      the arithmetic is written exactly as in the source.
    - [Math.ceil], [Math.max] and [Math.sqrt] are the platform builtins;
      [Math_sqrt] is a rational stand-in for the square root (exact on
      squares of numbers with at most 8 decimals, monotone, and within
      about 1e-8 of the true root elsewhere).
    - The two clock reads of [calculateDetailedEstimate] ([new Date()]
      and [Date.now()]) are inputs of the embedding ([ClockReads]).
    - [this.regionalPricing] is a JavaScript object: an association list
      of own keys in insertion order; a key missing from it may still be
      found on [Object.prototype].
    - [JSON.parse] is the platform parser; [importRegionalPricing] takes its
      outcome ([None] for a SyntaxError, [Some v] for the parsed value). *)

From Stdlib Require Import QArith Qround ZArith String Ascii List Bool Lia DecimalString Lqa.
Set Warnings "-register-all".

Import ListNotations.

Open Scope Q_scope.

(** ** Platform builtins *)

Definition Qltb (x y : Q) : bool := negb (Qle_bool y x).

(** [Math.ceil] *)
Definition Math_ceil (x : Q) : Q := inject_Z (Qceiling x).

(** [Math.max(x, y)] on non-NaN numbers. *)
Definition Math_max (x y : Q) : Q := if Qltb x y then y else x.

(** [Math.sqrt]: floor of the root on the grid of step 1e-8. *)
Definition SQRT_SCALE : positive := 100000000.

Definition Math_sqrt (x : Q) : Q :=
  Z.sqrt (Qfloor (x * inject_Z (Zpos SQRT_SCALE * Zpos SQRT_SCALE))) # SQRT_SCALE.

(** [String.prototype.toLowerCase] on ASCII text. *)
Definition lower_ascii (c : ascii) : ascii :=
  let n := nat_of_ascii c in
  if (65 <=? n)%nat && (n <=? 90)%nat then ascii_of_nat (n + 32) else c.

Fixpoint toLowerCase (s : string) : string :=
  match s with
  | EmptyString => EmptyString
  | String c s' => String (lower_ascii c) (toLowerCase s')
  end.

(** ** Data model (interfaces of calculationEngine.ts) *)

Module Sealer.
Record t := { pricePerGallon : Q; coverageRate : Q; supplier : string }.
End Sealer.
Module Sand.
Record t := { pricePerBag : Q; bagsPerGallon : Q; supplier : string }.
End Sand.
Module FastDry.
Record t := { pricePerBucket : Q; bucketsPerGallon : Q; supplier : string }.
End FastDry.
Module PrepSeal.
Record t := { pricePerBucket : Q; bucketsPerProject : Q; supplier : string }.
End PrepSeal.
Module CrackFiller.
Record t := { pricePerBox : Q; coveragePerBox : Q; supplier : string }.
End CrackFiller.
Module Propane.
Record t := { pricePerTank : Q; tanksPerLinearFoot : Q; supplier : string }.
End Propane.

Module MaterialPricing.
Record t := {
  sealer : Sealer.t; sand : Sand.t; fastDry : FastDry.t;
  prepSeal : PrepSeal.t; crackFiller : CrackFiller.t; propane : Propane.t }.
End MaterialPricing.

Inductive SkillLevel := basic | intermediate | expert.

Module LaborRates.
Record t := {
  hourlyRate : Q; hoursPerSqFt : Q; minimumHours : Q;
  overtimeMultiplier : Q; skillLevel : SkillLevel }.
End LaborRates.

Module Fuel.
Record t := { pricePerGallon : Q; mpg : Q; roundTripDistance : Q }.
End Fuel.

Module BusinessCosts.
Record t := { insuranceRate : Q; equipmentDepreciation : Q; permitCosts : Q }.
End BusinessCosts.

Module RegionalPricing.
Record t := {
  region : string; state : string; taxRate : Q;
  materials : MaterialPricing.t; labor : LaborRates.t;
  fuel : Fuel.t; businessCosts : BusinessCosts.t }.
End RegionalPricing.

Module VolumeDiscount.
Record t := { threshold : Q; discount : Q }.
End VolumeDiscount.

(** A customer tier.  The residential tier of the source has no
    [volumeDiscounts] field; the code never reads it for residential
    customers, and it is modelled as the empty list. *)
Module Tier.
Record t := { markup : Q; minimumCharge : Q; volumeDiscounts : list VolumeDiscount.t }.
End Tier.

Module PricingTiers.
Record t := { residential : Tier.t; commercial : Tier.t; industrial : Tier.t }.
End PricingTiers.

Inductive JobType := driveway | parking_lot.
Inductive CustomerType := residential | commercial | industrial.

Module LineItem.
Record t := { quantity : Q; unitCost : Q; totalCost : Q; supplier : string }.
End LineItem.

Module ProjectInfo.
Record t := {
  area : Q; jobType : JobType; address : string; region : string;
  estimateDate : Z; validUntil : Z }.
End ProjectInfo.

Module Materials.
Record t := {
  sealer : LineItem.t; sand : LineItem.t; fastDry : LineItem.t;
  prepSeal : LineItem.t; crackFiller : LineItem.t; propane : LineItem.t }.
End Materials.

Module Labor.
Record t := { hours : Q; rate : Q; totalCost : Q; skillLevel : SkillLevel }.
End Labor.

Module FuelExpense.
Record t := { distance : Q; rate : Q; totalCost : Q }.
End FuelExpense.
Module InsuranceExpense.
Record t := { rate : Q; totalCost : Q }.
End InsuranceExpense.
Module FlatExpense.
Record t := { totalCost : Q }.
End FlatExpense.

Module Expenses.
Record t := {
  fuel : FuelExpense.t; insurance : InsuranceExpense.t;
  equipment : FlatExpense.t; permits : FlatExpense.t }.
End Expenses.

Module PricingDetails.
Record t := {
  subtotal : Q; markup : Q; markupAmount : Q; beforeTax : Q;
  taxRate : Q; taxAmount : Q; finalTotal : Q; pricePerSqFt : Q }.
End PricingDetails.

Module ProfitAnalysis.
Record t := { grossProfit : Q; profitMargin : Q; breakEvenPoint : Q }.
End ProfitAnalysis.

Module DetailedEstimate.
Record t := {
  projectInfo : ProjectInfo.t; materials : Materials.t; labor : Labor.t;
  expenses : Expenses.t; pricing : PricingDetails.t;
  profitAnalysis : ProfitAnalysis.t }.
End DetailedEstimate.

(** ** JSON values and the engine state *)

Inductive json :=
| JNull
| JBool (b : bool)
| JNum (q : Q)
| JStr (s : string)
| JArr (xs : list json)
| JObj (kvs : list (string * json)).

(** JavaScript truthiness of a JSON value ([!pricing] in the source). *)
Definition js_falsy (v : json) : bool :=
  match v with
  | JNull => true
  | JBool b => negb b
  | JNum q => Qeq_bool q 0
  | JStr s => String.eqb s EmptyString
  | _ => false
  end.

(** A value of [this.regionalPricing]: a typed [RegionalPricing] (the
    defaults and [updateRegionalPricing]) or whatever value an imported
    document carried under that key. *)
Inductive Entry :=
| Priced (p : RegionalPricing.t)
| Imported (v : json).

Definition Catalog := list (string * Entry).

Module Engine.
Record t := { regionalPricing : Catalog; pricingTiers : PricingTiers.t }.
End Engine.

(** Own-property lookup in a JavaScript object (keys are unique). *)
Fixpoint own_get {A} (o : list (string * A)) (k : string) : option A :=
  match o with
  | [] => None
  | (k', v) :: o' => if String.eqb k k' then Some v else own_get o' k
  end.

(** Names found on [Object.prototype] by a property read. *)
Definition object_prototype_keys : list string :=
  [ "constructor"; "__defineGetter__"; "__defineSetter__"; "hasOwnProperty";
    "__lookupGetter__"; "__lookupSetter__"; "isPrototypeOf";
    "propertyIsEnumerable"; "toString"; "valueOf"; "__proto__";
    "toLocaleString" ]%string.

Definition inherited (k : string) : bool :=
  existsb (String.eqb k) object_prototype_keys.

(** ** Default data *)

Definition DEFAULT_VIRGINIA : RegionalPricing.t := {|
  RegionalPricing.region := "Virginia"; RegionalPricing.state := "VA";
  RegionalPricing.taxRate := 53 # 1000;
  RegionalPricing.materials := {|
    MaterialPricing.sealer := {| Sealer.pricePerGallon := 365 # 100;
      Sealer.coverageRate := 769 # 100; Sealer.supplier := "SealMaster" |};
    MaterialPricing.sand := {| Sand.pricePerBag := 10;
      Sand.bagsPerGallon := 2 # 100; Sand.supplier := "Local Supplier" |};
    MaterialPricing.fastDry := {| FastDry.pricePerBucket := 50;
      FastDry.bucketsPerGallon := 67 # 10000; FastDry.supplier := "SealMaster" |};
    MaterialPricing.prepSeal := {| PrepSeal.pricePerBucket := 50;
      PrepSeal.bucketsPerProject := 1; PrepSeal.supplier := "SealMaster" |};
    MaterialPricing.crackFiller := {| CrackFiller.pricePerBox := 4499 # 100;
      CrackFiller.coveragePerBox := 100; CrackFiller.supplier := "SealMaster" |};
    MaterialPricing.propane := {| Propane.pricePerTank := 10;
      Propane.tanksPerLinearFoot := 5 # 1000;
      Propane.supplier := "Local Gas Station" |} |};
  RegionalPricing.labor := {| LaborRates.hourlyRate := 12;
    LaborRates.hoursPerSqFt := 1 # 1000; LaborRates.minimumHours := 2;
    LaborRates.overtimeMultiplier := 15 # 10;
    LaborRates.skillLevel := intermediate |};
  RegionalPricing.fuel := {| Fuel.pricePerGallon := 350 # 100; Fuel.mpg := 8;
    Fuel.roundTripDistance := 90 |};
  RegionalPricing.businessCosts := {| BusinessCosts.insuranceRate := 2 # 100;
    BusinessCosts.equipmentDepreciation := 25;
    BusinessCosts.permitCosts := 0 |} |}%string.

Definition DEFAULT_NORTH_CAROLINA : RegionalPricing.t := {|
  RegionalPricing.region := "North Carolina"; RegionalPricing.state := "NC";
  RegionalPricing.taxRate := 475 # 10000;
  RegionalPricing.materials := {|
    MaterialPricing.sealer := {| Sealer.pricePerGallon := 385 # 100;
      Sealer.coverageRate := 769 # 100; Sealer.supplier := "SealMaster" |};
    MaterialPricing.sand := {| Sand.pricePerBag := 12;
      Sand.bagsPerGallon := 2 # 100; Sand.supplier := "Local Supplier" |};
    MaterialPricing.fastDry := {| FastDry.pricePerBucket := 55;
      FastDry.bucketsPerGallon := 67 # 10000; FastDry.supplier := "SealMaster" |};
    MaterialPricing.prepSeal := {| PrepSeal.pricePerBucket := 55;
      PrepSeal.bucketsPerProject := 1; PrepSeal.supplier := "SealMaster" |};
    MaterialPricing.crackFiller := {| CrackFiller.pricePerBox := 4799 # 100;
      CrackFiller.coveragePerBox := 100; CrackFiller.supplier := "SealMaster" |};
    MaterialPricing.propane := {| Propane.pricePerTank := 12;
      Propane.tanksPerLinearFoot := 5 # 1000;
      Propane.supplier := "Local Gas Station" |} |};
  RegionalPricing.labor := {| LaborRates.hourlyRate := 14;
    LaborRates.hoursPerSqFt := 1 # 1000; LaborRates.minimumHours := 2;
    LaborRates.overtimeMultiplier := 15 # 10;
    LaborRates.skillLevel := intermediate |};
  RegionalPricing.fuel := {| Fuel.pricePerGallon := 365 # 100; Fuel.mpg := 8;
    Fuel.roundTripDistance := 80 |};
  RegionalPricing.businessCosts := {| BusinessCosts.insuranceRate := 25 # 1000;
    BusinessCosts.equipmentDepreciation := 30;
    BusinessCosts.permitCosts := 25 |} |}%string.

Definition DEFAULT_REGIONAL_PRICING : Catalog :=
  [ ("virginia", Priced DEFAULT_VIRGINIA);
    ("north-carolina", Priced DEFAULT_NORTH_CAROLINA) ]%string.

Definition PRICING_TIERS : PricingTiers.t := {|
  PricingTiers.residential := {| Tier.markup := 25 # 100;
    Tier.minimumCharge := 200; Tier.volumeDiscounts := [] |};
  PricingTiers.commercial := {| Tier.markup := 20 # 100;
    Tier.minimumCharge := 500;
    Tier.volumeDiscounts :=
      [ {| VolumeDiscount.threshold := 5000; VolumeDiscount.discount := 5 # 100 |};
        {| VolumeDiscount.threshold := 10000; VolumeDiscount.discount := 10 # 100 |};
        {| VolumeDiscount.threshold := 25000; VolumeDiscount.discount := 15 # 100 |} ] |};
  PricingTiers.industrial := {| Tier.markup := 15 # 100;
    Tier.minimumCharge := 1000;
    Tier.volumeDiscounts :=
      [ {| VolumeDiscount.threshold := 10000; VolumeDiscount.discount := 5 # 100 |};
        {| VolumeDiscount.threshold := 25000; VolumeDiscount.discount := 10 # 100 |};
        {| VolumeDiscount.threshold := 50000; VolumeDiscount.discount := 20 # 100 |} ] |} |}.

(** [new AdvancedCalculationEngine()] (the spreads copy the defaults). *)
Definition new_engine : Engine.t :=
  {| Engine.regionalPricing := DEFAULT_REGIONAL_PRICING;
     Engine.pricingTiers := PRICING_TIERS |}.

(** ** calculateDetailedEstimate *)

(** What a call of the engine does: return a value, or throw. *)
Inductive js_error :=
| PricingUnavailable (region : string)  (** [new Error("Pricing data not available ...")] *)
| TypeError                             (** reading a field of [undefined] *)
| SyntaxError.                          (** [JSON.parse] of invalid text *)

Inductive outcome (A : Type) :=
| Ok (a : A)
| Throw (e : js_error)
(** The region key holds a truthy imported JSON value: the code reads its
    fields by name, and what it then produces (a TypeError or NaN fields)
    depends on the document's shape; the embedding does not follow it. *)
| DuckTypedEntry.
Arguments Ok {A} a.
Arguments Throw {A} e.
Arguments DuckTypedEntry {A}.

Definition is_ok {A} (o : outcome A) : bool :=
  match o with Ok _ => true | _ => false end.

(** The two clock reads: [new Date()] and [Date.now()], in ms. *)
Module ClockReads.
Record t := { newDate : Z; dateNow : Z }.
End ClockReads.

(** [this.pricingTiers[customerType]] *)
Definition tier_of (tiers : PricingTiers.t) (ct : CustomerType) : Tier.t :=
  match ct with
  | residential => PricingTiers.residential tiers
  | commercial => PricingTiers.commercial tiers
  | industrial => PricingTiers.industrial tiers
  end.

(** [Array.prototype.sort] with a comparator: the sort is stable, so its
    result is the stable insertion sort for the comparator [cmp]
    (negative: [a] first, positive: [b] first). *)
Section StableSort.
Context {A : Type} (cmp : A -> A -> Q).

Fixpoint insert_sorted (x : A) (l : list A) : list A :=
  match l with
  | [] => [x]
  | y :: r => if Qltb 0 (cmp y x) then x :: y :: r else y :: insert_sorted x r
  end.

Definition js_sort (l : list A) : list A :=
  fold_left (fun acc x => insert_sorted x acc) l [].
End StableSort.

(** [Object.values(materials)] *)
Definition materials_values (m : Materials.t) : list LineItem.t :=
  [ Materials.sealer m; Materials.sand m; Materials.fastDry m;
    Materials.prepSeal m; Materials.crackFiller m; Materials.propane m ].

(** [30 * 24 * 60 * 60 * 1000] *)
Definition THIRTY_DAYS_MS : Z := 30 * 24 * 60 * 60 * 1000.

(** The volume-discount step: [effectiveMarkup]. *)
Definition effectiveMarkup (tier : Tier.t) (customerType : CustomerType) (area : Q) : Q :=
  match customerType with
  | residential => Tier.markup tier
  | _ =>
    let applicableDiscount :=
      hd_error (js_sort (fun a b => VolumeDiscount.threshold b - VolumeDiscount.threshold a)
                 (filter (fun d => Qle_bool (VolumeDiscount.threshold d) area)
                         (Tier.volumeDiscounts tier))) in
    match applicableDiscount with
    | Some d => Tier.markup tier * (1 - VolumeDiscount.discount d)
    | None => Tier.markup tier
    end
  end.

(** The body of [calculateDetailedEstimate] once [pricing] and [tier] are
    resolved. *)
Definition estimate_with (pricing : RegionalPricing.t) (tier : Tier.t)
    (area : Q) (jobType : JobType) (address : string)
    (customerType : CustomerType) (clk : ClockReads.t) : DetailedEstimate.t :=
  let mp := RegionalPricing.materials pricing in
  let estimatedPerimeter := Math_sqrt area * 4 in
  let sealerGallons := area / Sealer.coverageRate (MaterialPricing.sealer mp) in
  let materials := {|
    Materials.sealer := {|
      LineItem.quantity := sealerGallons;
      LineItem.unitCost := Sealer.pricePerGallon (MaterialPricing.sealer mp);
      LineItem.totalCost := sealerGallons * Sealer.pricePerGallon (MaterialPricing.sealer mp);
      LineItem.supplier := Sealer.supplier (MaterialPricing.sealer mp) |};
    Materials.sand := {|
      LineItem.quantity := Math_ceil (sealerGallons * Sand.bagsPerGallon (MaterialPricing.sand mp));
      LineItem.unitCost := Sand.pricePerBag (MaterialPricing.sand mp);
      LineItem.totalCost := Math_ceil (sealerGallons * Sand.bagsPerGallon (MaterialPricing.sand mp))
                            * Sand.pricePerBag (MaterialPricing.sand mp);
      LineItem.supplier := Sand.supplier (MaterialPricing.sand mp) |};
    Materials.fastDry := {|
      LineItem.quantity := Math_ceil (sealerGallons * FastDry.bucketsPerGallon (MaterialPricing.fastDry mp));
      LineItem.unitCost := FastDry.pricePerBucket (MaterialPricing.fastDry mp);
      LineItem.totalCost := Math_ceil (sealerGallons * FastDry.bucketsPerGallon (MaterialPricing.fastDry mp))
                            * FastDry.pricePerBucket (MaterialPricing.fastDry mp);
      LineItem.supplier := FastDry.supplier (MaterialPricing.fastDry mp) |};
    Materials.prepSeal := {|
      LineItem.quantity := PrepSeal.bucketsPerProject (MaterialPricing.prepSeal mp);
      LineItem.unitCost := PrepSeal.pricePerBucket (MaterialPricing.prepSeal mp);
      LineItem.totalCost := PrepSeal.bucketsPerProject (MaterialPricing.prepSeal mp)
                            * PrepSeal.pricePerBucket (MaterialPricing.prepSeal mp);
      LineItem.supplier := PrepSeal.supplier (MaterialPricing.prepSeal mp) |};
    Materials.crackFiller := {|
      LineItem.quantity := Math_ceil (estimatedPerimeter / CrackFiller.coveragePerBox (MaterialPricing.crackFiller mp));
      LineItem.unitCost := CrackFiller.pricePerBox (MaterialPricing.crackFiller mp);
      LineItem.totalCost := Math_ceil (estimatedPerimeter / CrackFiller.coveragePerBox (MaterialPricing.crackFiller mp))
                            * CrackFiller.pricePerBox (MaterialPricing.crackFiller mp);
      LineItem.supplier := CrackFiller.supplier (MaterialPricing.crackFiller mp) |};
    Materials.propane := {|
      LineItem.quantity := Math_ceil (estimatedPerimeter * Propane.tanksPerLinearFoot (MaterialPricing.propane mp));
      LineItem.unitCost := Propane.pricePerTank (MaterialPricing.propane mp);
      LineItem.totalCost := Math_ceil (estimatedPerimeter * Propane.tanksPerLinearFoot (MaterialPricing.propane mp))
                            * Propane.pricePerTank (MaterialPricing.propane mp);
      LineItem.supplier := Propane.supplier (MaterialPricing.propane mp) |} |} in
  let lr := RegionalPricing.labor pricing in
  let laborHours := Math_max (area * LaborRates.hoursPerSqFt lr) (LaborRates.minimumHours lr) in
  let labor := {|
    Labor.hours := laborHours;
    Labor.rate := LaborRates.hourlyRate lr;
    Labor.totalCost := laborHours * LaborRates.hourlyRate lr;
    Labor.skillLevel := LaborRates.skillLevel lr |} in
  let fu := RegionalPricing.fuel pricing in
  let bc := RegionalPricing.businessCosts pricing in
  let fuelGallons := Fuel.roundTripDistance fu / Fuel.mpg fu in
  let subtotalForExpenses :=
    fold_left (fun sum mat => sum + LineItem.totalCost mat) (materials_values materials) 0
    + Labor.totalCost labor in
  let expenses := {|
    Expenses.fuel := {|
      FuelExpense.distance := Fuel.roundTripDistance fu;
      FuelExpense.rate := Fuel.pricePerGallon fu;
      FuelExpense.totalCost := fuelGallons * Fuel.pricePerGallon fu |};
    Expenses.insurance := {|
      InsuranceExpense.rate := BusinessCosts.insuranceRate bc;
      InsuranceExpense.totalCost := subtotalForExpenses * BusinessCosts.insuranceRate bc |};
    Expenses.equipment := {| FlatExpense.totalCost := BusinessCosts.equipmentDepreciation bc |};
    Expenses.permits := {| FlatExpense.totalCost := BusinessCosts.permitCosts bc |} |} in
  let subtotal :=
    subtotalForExpenses
    + FuelExpense.totalCost (Expenses.fuel expenses)
    + InsuranceExpense.totalCost (Expenses.insurance expenses)
    + FlatExpense.totalCost (Expenses.equipment expenses)
    + FlatExpense.totalCost (Expenses.permits expenses) in
  let effMarkup := effectiveMarkup tier customerType area in
  let markupAmount := subtotal * effMarkup in
  let beforeTax := subtotal + markupAmount in
  let taxAmount := beforeTax * RegionalPricing.taxRate pricing in
  let finalTotal := Math_max (beforeTax + taxAmount) (Tier.minimumCharge tier) in
  let pricingDetails := {|
    PricingDetails.subtotal := subtotal;
    PricingDetails.markup := effMarkup;
    PricingDetails.markupAmount := markupAmount;
    PricingDetails.beforeTax := beforeTax;
    PricingDetails.taxRate := RegionalPricing.taxRate pricing;
    PricingDetails.taxAmount := taxAmount;
    PricingDetails.finalTotal := finalTotal;
    PricingDetails.pricePerSqFt := finalTotal / area |} in
  let profitAnalysis := {|
    ProfitAnalysis.grossProfit := markupAmount;
    ProfitAnalysis.profitMargin := (markupAmount / finalTotal) * 100;
    ProfitAnalysis.breakEvenPoint := subtotal |} in
  {| DetailedEstimate.projectInfo := {|
       ProjectInfo.area := area;
       ProjectInfo.jobType := jobType;
       ProjectInfo.address := address;
       ProjectInfo.region := RegionalPricing.region pricing;
       ProjectInfo.estimateDate := ClockReads.newDate clk;
       ProjectInfo.validUntil := ClockReads.dateNow clk + THIRTY_DAYS_MS |};
     DetailedEstimate.materials := materials;
     DetailedEstimate.labor := labor;
     DetailedEstimate.expenses := expenses;
     DetailedEstimate.pricing := pricingDetails;
     DetailedEstimate.profitAnalysis := profitAnalysis |}.

(** [calculateDetailedEstimate(area, jobType, address, region, customerType)]
    on the engine state [st].  [pricing] is read from the catalog by the
    lowercased key: an own key gives its value, a name of
    [Object.prototype] gives an inherited member (truthy, without a
    [materials] field: reading [pricing.materials.sealer] throws a
    TypeError), anything else gives [undefined] and the explicit throw.
    (Division by zero: [Q] gives 0 where JavaScript gives Infinity or NaN,
    which only affects the quotients [pricePerSqFt] and [profitMargin]
    and the sealer gallons of a zero coverage rate.) *)
Definition calculateDetailedEstimate (st : Engine.t) (area : Q) (jobType : JobType)
    (address : string) (region : string) (customerType : CustomerType)
    (clk : ClockReads.t) : outcome DetailedEstimate.t :=
  let key := toLowerCase region in
  match own_get (Engine.regionalPricing st) key with
  | Some (Priced pricing) =>
      Ok (estimate_with pricing (tier_of (Engine.pricingTiers st) customerType)
            area jobType address customerType clk)
  | Some (Imported v) =>
      if js_falsy v then Throw (PricingUnavailable region) else DuckTypedEntry
  | None =>
      if inherited key then Throw TypeError else Throw (PricingUnavailable region)
  end.

(** ** calculateQuickEstimate *)

(** A material entry of the quick estimate ([{ gallons, cost }],
    [{ bags, cost }], [{ buckets, cost }], [{ boxes, cost }],
    [{ tanks, cost }]). *)
Module QuickItem.
Record t := { count : Q; cost : Q }.
End QuickItem.

Module QuickEstimate.
Record t := {
  area : Q;
  sealer : QuickItem.t; sand : QuickItem.t; fastDry : QuickItem.t;
  prepSeal : QuickItem.t; crackFiller : QuickItem.t; propane : QuickItem.t;
  laborHours : Q; laborCost : Q;
  fuelDistance : Q; fuelCost : Q;
  subtotal : Q; markup25 : Q; roundedUp : Q; finalTotal : Q }.
End QuickEstimate.

Definition quick_item (li : LineItem.t) : QuickItem.t :=
  {| QuickItem.count := LineItem.quantity li; QuickItem.cost := LineItem.totalCost li |}.

(** [calculateQuickEstimate(area, region)]: calls the detailed engine with
    ['driveway'], [''], [region] and the default customer type
    ['residential'] (an exception propagates). *)
Definition calculateQuickEstimate (st : Engine.t) (area : Q) (region : string)
    (clk : ClockReads.t) : outcome QuickEstimate.t :=
  match calculateDetailedEstimate st area driveway EmptyString region residential clk with
  | Ok detailed =>
      let m := DetailedEstimate.materials detailed in
      let pr := DetailedEstimate.pricing detailed in
      Ok {| QuickEstimate.area := area;
            QuickEstimate.sealer := quick_item (Materials.sealer m);
            QuickEstimate.sand := quick_item (Materials.sand m);
            QuickEstimate.fastDry := quick_item (Materials.fastDry m);
            QuickEstimate.prepSeal := quick_item (Materials.prepSeal m);
            QuickEstimate.crackFiller := quick_item (Materials.crackFiller m);
            QuickEstimate.propane := quick_item (Materials.propane m);
            QuickEstimate.laborHours := Labor.hours (DetailedEstimate.labor detailed);
            QuickEstimate.laborCost := Labor.totalCost (DetailedEstimate.labor detailed);
            QuickEstimate.fuelDistance :=
              FuelExpense.distance (Expenses.fuel (DetailedEstimate.expenses detailed));
            QuickEstimate.fuelCost :=
              FuelExpense.totalCost (Expenses.fuel (DetailedEstimate.expenses detailed));
            QuickEstimate.subtotal := PricingDetails.subtotal pr;
            QuickEstimate.markup25 := PricingDetails.beforeTax pr;
            QuickEstimate.roundedUp := Math_ceil (PricingDetails.beforeTax pr / 10) * 10;
            QuickEstimate.finalTotal := PricingDetails.finalTotal pr |}
  | Throw e => Throw e
  | DuckTypedEntry => DuckTypedEntry
  end.

(** ** importRegionalPricing *)

(** Property write [o[k] = v] on a JavaScript object: an existing key keeps
    its place, a new key is appended. *)
Fixpoint js_set {A} (o : list (string * A)) (k : string) (v : A) : list (string * A) :=
  match o with
  | [] => [(k, v)]
  | (k', v') :: o' => if String.eqb k k' then (k', v) :: o' else (k', v') :: js_set o' k v
  end.

Fixpoint string_chars (s : string) : list json :=
  match s with
  | EmptyString => []
  | String c s' => JStr (String c EmptyString) :: string_chars s'
  end.

Definition index_key (n : nat) : string :=
  NilZero.string_of_uint (Nat.to_uint n).

Fixpoint indexed {A} (n : nat) (xs : list A) : list (string * A) :=
  match xs with
  | [] => []
  | x :: xs' => (index_key n, x) :: indexed (S n) xs'
  end.

(** The own enumerable properties that [...v] copies from a parsed JSON
    value (an object parsed by [JSON.parse] has unique keys; the position
    of integer-like keys in JavaScript's enumeration order is not
    tracked, only which keys and values are copied). *)
Definition spread_props (v : json) : list (string * json) :=
  match v with
  | JObj kvs => kvs
  | JArr xs => indexed 0 xs
  | JStr s => indexed 0 (string_chars s)
  | _ => []
  end.

(** [{ ...base, ...imported }] *)
Definition spread_merge (base : Catalog) (imported : json) : Catalog :=
  fold_left (fun acc kv => js_set acc (fst kv) (Imported (snd kv)))
            (spread_props imported) base.

(** [importRegionalPricing(jsonData)], given the outcome [parsed] of
    [JSON.parse(jsonData)]: on a SyntaxError the catch block rethrows it
    before any assignment; otherwise the merged object replaces
    [this.regionalPricing]. *)
Definition importRegionalPricing (parsed : option json) (st : Engine.t) : outcome Engine.t :=
  match parsed with
  | None => Throw SyntaxError
  | Some imported =>
      Ok {| Engine.regionalPricing := spread_merge (Engine.regionalPricing st) imported;
            Engine.pricingTiers := Engine.pricingTiers st |}
  end.

(** ** Auxiliary definitions for the statements *)

Definition outcome_map {A B} (f : A -> B) (o : outcome A) : outcome B :=
  match o with
  | Ok a => Ok (f a)
  | Throw e => Throw e
  | DuckTypedEntry => DuckTypedEntry
  end.

(** Both clock reads taken at the same instant [t]. *)
Definition clock_at (t : Z) : ClockReads.t :=
  {| ClockReads.newDate := t; ClockReads.dateNow := t |}.

(** An estimate with its two timestamps cleared. *)
Definition erase_clock (e : DetailedEstimate.t) : DetailedEstimate.t :=
  let pi := DetailedEstimate.projectInfo e in
  {| DetailedEstimate.projectInfo := {|
       ProjectInfo.area := ProjectInfo.area pi;
       ProjectInfo.jobType := ProjectInfo.jobType pi;
       ProjectInfo.address := ProjectInfo.address pi;
       ProjectInfo.region := ProjectInfo.region pi;
       ProjectInfo.estimateDate := 0%Z;
       ProjectInfo.validUntil := 0%Z |};
     DetailedEstimate.materials := DetailedEstimate.materials e;
     DetailedEstimate.labor := DetailedEstimate.labor e;
     DetailedEstimate.expenses := DetailedEstimate.expenses e;
     DetailedEstimate.pricing := DetailedEstimate.pricing e;
     DetailedEstimate.profitAnalysis := DetailedEstimate.profitAnalysis e |}.

Definition finalTotal_of (e : DetailedEstimate.t) : Q :=
  PricingDetails.finalTotal (DetailedEstimate.pricing e).

(** ** Shared lemmas *)

Lemma calculateDetailedEstimate_priced st area jt addr region ct clk p :
  own_get (Engine.regionalPricing st) (toLowerCase region) = Some (Priced p) ->
  calculateDetailedEstimate st area jt addr region ct clk
  = Ok (estimate_with p (tier_of (Engine.pricingTiers st) ct) area jt addr ct clk).
Proof. intros H. unfold calculateDetailedEstimate. now rewrite H. Qed.

Lemma calculateDetailedEstimate_ok_inv st area jt addr region ct clk e :
  calculateDetailedEstimate st area jt addr region ct clk = Ok e ->
  exists p, own_get (Engine.regionalPricing st) (toLowerCase region) = Some (Priced p)
    /\ e = estimate_with p (tier_of (Engine.pricingTiers st) ct) area jt addr ct clk.
Proof.
  unfold calculateDetailedEstimate.
  destruct (own_get _ _) as [[p|v]|] eqn:Hg.
  - intros H; inversion H; subst; eauto.
  - destruct (js_falsy v); discriminate.
  - destruct (inherited _); discriminate.
Qed.

Lemma estimate_with_clock p tier area jt addr ct clk :
  estimate_with p tier area jt addr ct clk
  = let e := estimate_with p tier area jt addr ct (clock_at 0) in
    {| DetailedEstimate.projectInfo := {|
         ProjectInfo.area := area; ProjectInfo.jobType := jt;
         ProjectInfo.address := addr;
         ProjectInfo.region := RegionalPricing.region p;
         ProjectInfo.estimateDate := ClockReads.newDate clk;
         ProjectInfo.validUntil := (ClockReads.dateNow clk + THIRTY_DAYS_MS)%Z |};
       DetailedEstimate.materials := DetailedEstimate.materials e;
       DetailedEstimate.labor := DetailedEstimate.labor e;
       DetailedEstimate.expenses := DetailedEstimate.expenses e;
       DetailedEstimate.pricing := DetailedEstimate.pricing e;
       DetailedEstimate.profitAnalysis := DetailedEstimate.profitAnalysis e |}.
Proof. reflexivity. Qed.

Lemma Math_max_ge_r x y : y <= Math_max x y.
Proof.
  unfold Math_max, Qltb. destruct (Qle_bool y x) eqn:H; simpl.
  - now apply Qle_bool_iff.
  - apply Qle_refl.
Qed.

Lemma Math_max_lt x y : x < y -> Math_max x y = y.
Proof.
  intros H. unfold Math_max, Qltb.
  destruct (Qle_bool y x) eqn:E; [|reflexivity].
  apply Qle_bool_iff in E. exfalso. apply (Qlt_not_le x y); assumption.
Qed.

(** ** C1: area validation *)

(** C1 (as stated: every area <= 0 is rejected before any calculation)
    fails: on the default engine an area of 0, and a negative area, both
    yield a [DetailedEstimate]. *)
Lemma C1_nonpositive_area_not_rejected :
  is_ok (calculateDetailedEstimate new_engine 0 driveway EmptyString "virginia" residential (clock_at 0)) = true
  /\ is_ok (calculateDetailedEstimate new_engine (-5) driveway EmptyString "virginia" residential (clock_at 0)) = true.
Proof. split; vm_compute; reflexivity. Qed.

(** C1 (amended): [calculateDetailedEstimate] does not validate [area]:
    whenever the lowercased region key holds a typed catalog entry, the
    call returns the estimate computed from that entry, whatever the area
    (zero and negative included); the only rejections depend on the
    region key. *)
Theorem C1_no_area_validation st area jt addr region ct clk p :
  own_get (Engine.regionalPricing st) (toLowerCase region) = Some (Priced p) ->
  calculateDetailedEstimate st area jt addr region ct clk
  = Ok (estimate_with p (tier_of (Engine.pricingTiers st) ct) area jt addr ct clk).
Proof. apply calculateDetailedEstimate_priced. Qed.

Lemma C1_no_area_validation_witness :
  calculateDetailedEstimate new_engine 0 driveway EmptyString "virginia" residential (clock_at 0)
  = Ok (estimate_with DEFAULT_VIRGINIA (tier_of PRICING_TIERS residential)
          0 driveway EmptyString residential (clock_at 0)).
Proof. apply (C1_no_area_validation new_engine 0 driveway EmptyString "virginia" residential (clock_at 0) DEFAULT_VIRGINIA). reflexivity. Defined.

(** ** C2: determinism up to the clock *)

(** C2 (as stated: two calls with the same arguments and catalog return
    identical values in every field) fails: calls one millisecond apart
    return different [estimateDate] and [validUntil]. *)
Lemma C2_timestamps_differ :
  calculateDetailedEstimate new_engine 1000 driveway EmptyString "virginia" residential (clock_at 0)
  <> calculateDetailedEstimate new_engine 1000 driveway EmptyString "virginia" residential (clock_at 1).
Proof. vm_compute. intros H. inversion H. Qed.

(** C2 (amended): for fixed arguments and catalog, two calls agree in every
    field except [projectInfo.estimateDate] and [projectInfo.validUntil],
    which are the clock reads [new Date()] and [Date.now() + 30 days] of
    each call; with the same clock reads the outcomes are identical. *)
Theorem C2_deterministic_up_to_clock st area jt addr region ct clk1 clk2 :
  outcome_map erase_clock (calculateDetailedEstimate st area jt addr region ct clk1)
  = outcome_map erase_clock (calculateDetailedEstimate st area jt addr region ct clk2)
  /\ outcome_map (fun e => (ProjectInfo.estimateDate (DetailedEstimate.projectInfo e),
                            ProjectInfo.validUntil (DetailedEstimate.projectInfo e)))
       (calculateDetailedEstimate st area jt addr region ct clk1)
     = outcome_map (fun _ => (ClockReads.newDate clk1,
                              (ClockReads.dateNow clk1 + THIRTY_DAYS_MS)%Z))
       (calculateDetailedEstimate st area jt addr region ct clk1).
Proof.
  split.
  - unfold calculateDetailedEstimate.
    destruct (own_get _ _) as [[p|v]|]; simpl; [|reflexivity|reflexivity].
    rewrite (estimate_with_clock _ _ _ _ _ _ clk1), (estimate_with_clock _ _ _ _ _ _ clk2).
    reflexivity.
  - unfold calculateDetailedEstimate.
    destruct (own_get _ _) as [[p|v]|]; [reflexivity| |];
      [destruct (js_falsy v) | destruct (inherited _)]; reflexivity.
Qed.

(** ** C5: markup, tax and the minimum charge *)

(** C5: in every estimate the engine returns, [markupAmount = subtotal *
    markup] (the effective markup), [beforeTax = subtotal + markupAmount],
    [taxAmount = beforeTax * taxRate] of the region, [finalTotal =
    max(beforeTax + taxAmount, minimumCharge)] of the customer's tier, so
    that [finalTotal >= minimumCharge] whatever the area. *)
Theorem C5_pricing_and_minimum_charge st area jt addr region ct clk p e :
  own_get (Engine.regionalPricing st) (toLowerCase region) = Some (Priced p) ->
  calculateDetailedEstimate st area jt addr region ct clk = Ok e ->
  let tier := tier_of (Engine.pricingTiers st) ct in
  let pd := DetailedEstimate.pricing e in
  PricingDetails.markup pd = effectiveMarkup tier ct area
  /\ PricingDetails.markupAmount pd = PricingDetails.subtotal pd * PricingDetails.markup pd
  /\ PricingDetails.beforeTax pd = PricingDetails.subtotal pd + PricingDetails.markupAmount pd
  /\ PricingDetails.taxRate pd = RegionalPricing.taxRate p
  /\ PricingDetails.taxAmount pd = PricingDetails.beforeTax pd * RegionalPricing.taxRate p
  /\ PricingDetails.finalTotal pd
     = Math_max (PricingDetails.beforeTax pd + PricingDetails.taxAmount pd) (Tier.minimumCharge tier)
  /\ Tier.minimumCharge tier <= PricingDetails.finalTotal pd.
Proof.
  intros Hp He. rewrite (calculateDetailedEstimate_priced _ _ _ _ _ _ clk p Hp) in He.
  inversion He; subst; clear He. cbn zeta.
  repeat split. apply Math_max_ge_r.
Qed.

Lemma C5_pricing_and_minimum_charge_witness :
  exists e,
    calculateDetailedEstimate new_engine (1 # 100) driveway EmptyString "virginia" residential (clock_at 0) = Ok e
    /\ Tier.minimumCharge (tier_of PRICING_TIERS residential) <= finalTotal_of e.
Proof.
  eexists. split; [vm_compute; reflexivity|].
  apply (C5_pricing_and_minimum_charge new_engine (1 # 100) driveway EmptyString "virginia"
           residential (clock_at 0) DEFAULT_VIRGINIA); [reflexivity | vm_compute; reflexivity].
Defined.

(** ** C8: labor hours *)

(** C8: [labor.hours = max(area * hoursPerSqFt, minimumHours)], unrounded,
    [labor.totalCost = hours * hourlyRate], and whenever [area *
    hoursPerSqFt < minimumHours] the hours are exactly [minimumHours]. *)
Theorem C8_labor_hours st area jt addr region ct clk p e :
  own_get (Engine.regionalPricing st) (toLowerCase region) = Some (Priced p) ->
  calculateDetailedEstimate st area jt addr region ct clk = Ok e ->
  let lr := RegionalPricing.labor p in
  let l := DetailedEstimate.labor e in
  Labor.hours l = Math_max (area * LaborRates.hoursPerSqFt lr) (LaborRates.minimumHours lr)
  /\ Labor.totalCost l = Labor.hours l * LaborRates.hourlyRate lr
  /\ (area * LaborRates.hoursPerSqFt lr < LaborRates.minimumHours lr ->
      Labor.hours l = LaborRates.minimumHours lr).
Proof.
  intros Hp He. rewrite (calculateDetailedEstimate_priced _ _ _ _ _ _ clk p Hp) in He.
  inversion He; subst; clear He. cbn zeta.
  split; [reflexivity | split; [reflexivity|]].
  apply Math_max_lt.
Qed.

Lemma C8_labor_hours_witness :
  exists e,
    calculateDetailedEstimate new_engine 1000 driveway EmptyString "virginia" residential (clock_at 0) = Ok e
    /\ Labor.hours (DetailedEstimate.labor e) = 2.
Proof.
  eexists. split; [vm_compute; reflexivity|].
  refine (proj2 (proj2 (C8_labor_hours new_engine 1000 driveway EmptyString "virginia"
           residential (clock_at 0) DEFAULT_VIRGINIA _ eq_refl _)) _);
    [reflexivity | vm_compute; reflexivity].
Defined.

(** ** C9: unknown region keys *)

(** C9: when the lowercased region is not a key of the catalog, the call
    throws (no estimate is returned, no default region is used); the call
    returns no new engine state, so the catalog is unchanged. *)
Theorem C9_unknown_region_throws st area jt addr region ct clk :
  own_get (Engine.regionalPricing st) (toLowerCase region) = None ->
  exists err, calculateDetailedEstimate st area jt addr region ct clk = Throw err.
Proof.
  intros H. unfold calculateDetailedEstimate. rewrite H.
  destruct (inherited _); eexists; reflexivity.
Qed.

Lemma C9_unknown_region_throws_witness :
  exists err, calculateDetailedEstimate new_engine 1000 driveway EmptyString "Texas" residential (clock_at 0) = Throw err.
Proof. apply C9_unknown_region_throws. reflexivity. Defined.

(** ** C10: the quick estimate *)

(** C10: [calculateQuickEstimate(area, region)] delegates to the detailed
    engine: its [finalTotal] is the [pricing.finalTotal] of
    [calculateDetailedEstimate(area, 'driveway', '', region,
    'residential')] (whenever each call reads the clock), its [roundedUp]
    is [ceil(beforeTax / 10) * 10] and takes no part in [finalTotal], and
    both calls fail alike. *)
Theorem C10_quick_estimate_delegates st area region clk1 clk2 :
  outcome_map QuickEstimate.finalTotal (calculateQuickEstimate st area region clk1)
  = outcome_map finalTotal_of
      (calculateDetailedEstimate st area driveway EmptyString region residential clk2)
  /\ outcome_map QuickEstimate.roundedUp (calculateQuickEstimate st area region clk1)
  = outcome_map (fun d => Math_ceil (PricingDetails.beforeTax (DetailedEstimate.pricing d) / 10) * 10)
      (calculateDetailedEstimate st area driveway EmptyString region residential clk2).
Proof.
  unfold calculateQuickEstimate, calculateDetailedEstimate.
  destruct (own_get _ _) as [[p|v]|]; [split; reflexivity| |];
    [destruct (js_falsy v) | destruct (inherited _)]; split; reflexivity.
Qed.

(** ** C7: the insurance base *)

(** [updateRegionalPricing(region, pricing)] (the toast is not modelled). *)
Definition updateRegionalPricing (st : Engine.t) (region : string) (pricing : RegionalPricing.t)
    : Engine.t :=
  {| Engine.regionalPricing := js_set (Engine.regionalPricing st) (toLowerCase region) (Priced pricing);
     Engine.pricingTiers := Engine.pricingTiers st |}.

(** A regional pricing with other flat equipment and permit charges. *)
Definition set_flat_costs (p : RegionalPricing.t) (equipment permits : Q) : RegionalPricing.t :=
  {| RegionalPricing.region := RegionalPricing.region p;
     RegionalPricing.state := RegionalPricing.state p;
     RegionalPricing.taxRate := RegionalPricing.taxRate p;
     RegionalPricing.materials := RegionalPricing.materials p;
     RegionalPricing.labor := RegionalPricing.labor p;
     RegionalPricing.fuel := RegionalPricing.fuel p;
     RegionalPricing.businessCosts := {|
       BusinessCosts.insuranceRate := BusinessCosts.insuranceRate (RegionalPricing.businessCosts p);
       BusinessCosts.equipmentDepreciation := equipment;
       BusinessCosts.permitCosts := permits |} |}.

(** C7: the insurance cost is [(sum of the six material costs + labor
    cost) * insuranceRate]; with the equipment and permit charges of the
    region changed and all else fixed, it is the same. *)
Theorem C7_insurance_base st st' area jt addr region ct clk clk' p e e' equipment permits :
  own_get (Engine.regionalPricing st) (toLowerCase region) = Some (Priced p) ->
  own_get (Engine.regionalPricing st') (toLowerCase region)
    = Some (Priced (set_flat_costs p equipment permits)) ->
  calculateDetailedEstimate st area jt addr region ct clk = Ok e ->
  calculateDetailedEstimate st' area jt addr region ct clk' = Ok e' ->
  let m := DetailedEstimate.materials e in
  let ins e0 := InsuranceExpense.totalCost (Expenses.insurance (DetailedEstimate.expenses e0)) in
  ins e == (LineItem.totalCost (Materials.sealer m) + LineItem.totalCost (Materials.sand m)
            + LineItem.totalCost (Materials.fastDry m) + LineItem.totalCost (Materials.prepSeal m)
            + LineItem.totalCost (Materials.crackFiller m) + LineItem.totalCost (Materials.propane m)
            + Labor.totalCost (DetailedEstimate.labor e))
           * BusinessCosts.insuranceRate (RegionalPricing.businessCosts p)
  /\ ins e' = ins e.
Proof.
  intros Hp Hp' He He'.
  rewrite (calculateDetailedEstimate_priced _ _ _ _ _ _ clk p Hp) in He.
  rewrite (calculateDetailedEstimate_priced _ _ _ _ _ _ clk' _ Hp') in He'.
  inversion He; inversion He'; subst; clear He He'. cbn zeta.
  split; [simpl; ring | reflexivity].
Qed.

Lemma C7_insurance_base_witness :
  exists e e',
    calculateDetailedEstimate new_engine 1000 driveway EmptyString "virginia" residential (clock_at 0) = Ok e
    /\ calculateDetailedEstimate
         (updateRegionalPricing new_engine "virginia" (set_flat_costs DEFAULT_VIRGINIA 100 50))
         1000 driveway EmptyString "virginia" residential (clock_at 0) = Ok e'
    /\ InsuranceExpense.totalCost (Expenses.insurance (DetailedEstimate.expenses e'))
       = InsuranceExpense.totalCost (Expenses.insurance (DetailedEstimate.expenses e)).
Proof.
  do 2 eexists. split; [vm_compute; reflexivity|]. split; [vm_compute; reflexivity|].
  refine (proj2 (C7_insurance_base new_engine
           (updateRegionalPricing new_engine "virginia" (set_flat_costs DEFAULT_VIRGINIA 100 50))
           1000 driveway EmptyString "virginia" residential (clock_at 0) (clock_at 0)
           DEFAULT_VIRGINIA _ _ 100 50 _ _ _ _));
    [reflexivity | reflexivity | vm_compute; reflexivity | vm_compute; reflexivity].
Defined.

(** ** C6: volume discounts *)

(** The comparator of the source: [(a, b) => b.threshold - a.threshold]. *)
Definition by_threshold_desc (a b : VolumeDiscount.t) : Q :=
  VolumeDiscount.threshold b - VolumeDiscount.threshold a.

Definition head_is_max (l : list VolumeDiscount.t) : Prop :=
  forall h r, l = h :: r ->
  forall y, In y l -> VolumeDiscount.threshold y <= VolumeDiscount.threshold h.

Lemma In_insert_sorted {A} (cmp : A -> A -> Q) x l y :
  In y (insert_sorted cmp x l) <-> x = y \/ In y l.
Proof.
  induction l as [|z l IH]; simpl.
  - tauto.
  - destruct (Qltb 0 (cmp z x)); simpl; rewrite ?IH; tauto.
Qed.

Lemma insert_sorted_head_is_max x l :
  head_is_max l -> head_is_max (insert_sorted by_threshold_desc x l).
Proof.
  unfold head_is_max. intros Hl h r Heq y Hy. rewrite Heq in Hy.
  destruct l as [|z l]; simpl in Heq.
  - inversion Heq; subst. destruct Hy as [<-|[]]. apply Qle_refl.
  - unfold by_threshold_desc, Qltb in Heq.
    destruct (Qle_bool _ _) eqn:E; simpl in Heq; injection Heq as Hh Hr; subst h r.
    + (* [x] goes after the head [z] *)
      apply Qle_bool_iff in E.
      destruct Hy as [<-|Hy]; [apply Qle_refl|].
      apply In_insert_sorted in Hy. destruct Hy as [<-|Hy]; [lra|].
      apply (Hl z l eq_refl y); simpl; auto.
    + (* [x] becomes the head *)
      assert (Hz : ~ (VolumeDiscount.threshold x - VolumeDiscount.threshold z <= 0)).
      { intros Hc. apply Qle_bool_iff in Hc. congruence. }
      destruct Hy as [<-|[<-|Hy]]; [apply Qle_refl| |].
      * lra.
      * specialize (Hl z l eq_refl y (or_intror Hy)). lra.
Qed.

Lemma js_sort_fold l acc :
  head_is_max acc ->
  head_is_max (fold_left (fun acc x => insert_sorted by_threshold_desc x acc) l acc)
  /\ (forall y, In y (fold_left (fun acc x => insert_sorted by_threshold_desc x acc) l acc)
                <-> In y l \/ In y acc).
Proof.
  revert acc. induction l as [|x l IH]; intros acc Hacc; simpl.
  - split; [assumption | tauto].
  - destruct (IH _ (insert_sorted_head_is_max x acc Hacc)) as [H1 H2].
    split; [assumption|]. intros y. rewrite H2, In_insert_sorted. tauto.
Qed.

(** The first element of the sorted list is an element with the highest
    threshold; the sorted list is empty only for an empty list. *)
Lemma js_sort_head l :
  match hd_error (js_sort by_threshold_desc l) with
  | Some h => In h l /\ forall y, In y l -> VolumeDiscount.threshold y <= VolumeDiscount.threshold h
  | None => l = []
  end.
Proof.
  assert (H0 : head_is_max []) by (intros h r Hc; discriminate).
  destruct (js_sort_fold l [] H0) as [Hmax Hin]. unfold js_sort.
  destruct (fold_left _ l []) as [|h r] eqn:E; simpl.
  - destruct l as [|x l]; [reflexivity|].
    exfalso. apply (proj2 (Hin x)). simpl; auto.
  - split.
    + destruct (proj1 (Hin h) (or_introl eq_refl)) as [H|[]]. exact H.
    + intros y Hy. apply (Hmax h r eq_refl). apply Hin. auto.
Qed.

Lemma effectiveMarkup_discounted tier ct area :
  ct <> residential ->
  match hd_error (js_sort by_threshold_desc
                   (filter (fun d => Qle_bool (VolumeDiscount.threshold d) area)
                           (Tier.volumeDiscounts tier))) with
  | Some d => effectiveMarkup tier ct area = Tier.markup tier * (1 - VolumeDiscount.discount d)
  | None => effectiveMarkup tier ct area = Tier.markup tier
  end.
Proof.
  intros Hct. unfold effectiveMarkup.
  destruct ct; [congruence| |]; unfold by_threshold_desc;
    destruct (hd_error _); reflexivity.
Qed.

(** The thresholds of the engine's tiers are pairwise distinct. *)
Lemma PRICING_TIERS_thresholds_distinct ct a b :
  In a (Tier.volumeDiscounts (tier_of PRICING_TIERS ct)) ->
  In b (Tier.volumeDiscounts (tier_of PRICING_TIERS ct)) ->
  VolumeDiscount.threshold a == VolumeDiscount.threshold b -> a = b.
Proof.
  destruct ct; simpl; intros Ha Hb Heq;
    repeat match goal with
           | H : _ \/ _ |- _ => destruct H as [<-|H]
           | H : False |- _ => destruct H
           end; try reflexivity; vm_compute in Heq; discriminate.
Qed.

Lemma estimate_with_markup p tier area jt addr ct clk :
  PricingDetails.markup (DetailedEstimate.pricing (estimate_with p tier area jt addr ct clk))
  = effectiveMarkup tier ct area.
Proof. reflexivity. Qed.

(** C6: with the engine's tiers, the markup of a commercial or industrial
    estimate is [tier.markup * (1 - d)] for the discount [d] of the highest
    threshold [<= area] (an area equal to a threshold gets its discount),
    and the base markup when no threshold is met; a residential estimate
    keeps the base markup.  A commercial estimate of 12000 sq ft gets the
    10% discount: [0.20 * 0.90 = 0.18]. *)
Theorem C6_volume_discount_markup st area jt addr region ct clk e :
  Engine.pricingTiers st = PRICING_TIERS ->
  calculateDetailedEstimate st area jt addr region ct clk = Ok e ->
  let tier := tier_of PRICING_TIERS ct in
  let m := PricingDetails.markup (DetailedEstimate.pricing e) in
  (ct = residential -> m = Tier.markup tier)
  /\ (ct <> residential ->
      forall vd, In vd (Tier.volumeDiscounts tier) ->
      VolumeDiscount.threshold vd <= area ->
      (forall vd', In vd' (Tier.volumeDiscounts tier) -> VolumeDiscount.threshold vd' <= area ->
         VolumeDiscount.threshold vd' <= VolumeDiscount.threshold vd) ->
      m = Tier.markup tier * (1 - VolumeDiscount.discount vd))
  /\ (ct <> residential ->
      (forall vd, In vd (Tier.volumeDiscounts tier) -> area < VolumeDiscount.threshold vd) ->
      m = Tier.markup tier)
  /\ (ct = commercial -> area == 12000 ->
      m = (20 # 100) * (1 - (10 # 100)) /\ m == 18 # 100).
Proof.
  intros Hst He. apply calculateDetailedEstimate_ok_inv in He.
  destruct He as [p [_ ->]]. rewrite Hst. cbn zeta. rewrite estimate_with_markup.
  assert (Hdisc : ct <> residential ->
      forall vd, In vd (Tier.volumeDiscounts (tier_of PRICING_TIERS ct)) ->
      VolumeDiscount.threshold vd <= area ->
      (forall vd', In vd' (Tier.volumeDiscounts (tier_of PRICING_TIERS ct)) ->
         VolumeDiscount.threshold vd' <= area ->
         VolumeDiscount.threshold vd' <= VolumeDiscount.threshold vd) ->
      effectiveMarkup (tier_of PRICING_TIERS ct) ct area
      = Tier.markup (tier_of PRICING_TIERS ct) * (1 - VolumeDiscount.discount vd)).
  { intros Hct vd Hin Hle Hmax.
    pose proof (effectiveMarkup_discounted (tier_of PRICING_TIERS ct) ct area Hct) as Hm.
    pose proof (js_sort_head (filter (fun d => Qle_bool (VolumeDiscount.threshold d) area)
                                     (Tier.volumeDiscounts (tier_of PRICING_TIERS ct)))) as Hh.
    assert (Hvd : In vd (filter (fun d => Qle_bool (VolumeDiscount.threshold d) area)
                                (Tier.volumeDiscounts (tier_of PRICING_TIERS ct)))).
    { apply filter_In. split; [assumption|]. now apply Qle_bool_iff. }
    destruct (hd_error _) as [h|].
    - destruct Hh as [Hh Hhmax]. apply filter_In in Hh. destruct Hh as [Hh Hha].
      apply Qle_bool_iff in Hha.
      assert (Heq : VolumeDiscount.threshold h == VolumeDiscount.threshold vd).
      { apply Qle_antisym; [apply Hmax; assumption | apply Hhmax; assumption]. }
      rewrite (PRICING_TIERS_thresholds_distinct ct h vd Hh Hin Heq) in Hm. exact Hm.
    - rewrite Hh in Hvd. destruct Hvd. }
  split; [|split; [exact Hdisc|split]].
  - intros ->. reflexivity.
  - intros Hct Hnone.
    pose proof (effectiveMarkup_discounted (tier_of PRICING_TIERS ct) ct area Hct) as Hm.
    pose proof (js_sort_head (filter (fun d => Qle_bool (VolumeDiscount.threshold d) area)
                                     (Tier.volumeDiscounts (tier_of PRICING_TIERS ct)))) as Hh.
    destruct (hd_error _) as [h|]; [|exact Hm].
    destruct Hh as [Hh _]. apply filter_In in Hh. destruct Hh as [Hh Hha].
    apply Qle_bool_iff in Hha. specialize (Hnone h Hh). exfalso. lra.
  - intros -> Harea.
    rewrite (Hdisc ltac:(discriminate)
               {| VolumeDiscount.threshold := 10000; VolumeDiscount.discount := 10 # 100 |}).
    + split; [reflexivity | vm_compute; reflexivity].
    + simpl; auto.
    + simpl. lra.
    + intros vd' Hin' Hle'. simpl in Hin'.
      destruct Hin' as [<-|[<-|[<-|[]]]]; simpl in *; lra.
Qed.

Lemma C6_volume_discount_markup_witness :
  exists e,
    calculateDetailedEstimate new_engine 12000 parking_lot EmptyString "virginia" commercial (clock_at 0) = Ok e
    /\ PricingDetails.markup (DetailedEstimate.pricing e) == 18 # 100.
Proof.
  eexists. split; [vm_compute; reflexivity|].
  refine (proj2 (proj2 (proj2 (proj2 (C6_volume_discount_markup new_engine 12000 parking_lot
            EmptyString "virginia" commercial (clock_at 0) _ eq_refl _))) eq_refl _));
    [vm_compute; reflexivity | reflexivity].
Defined.

(** ** C3: importing a pricing document *)

Lemma own_get_js_set {A} (o : list (string * A)) k v k' :
  own_get (js_set o k v) k' = if String.eqb k' k then Some v else own_get o k'.
Proof.
  induction o as [|[k0 v0] o IH]; simpl.
  - reflexivity.
  - destruct (String.eqb k k0) eqn:E; simpl.
    + apply String.eqb_eq in E. subst k0.
      destruct (String.eqb k' k); reflexivity.
    + rewrite IH. destruct (String.eqb k' k0) eqn:E0; [|reflexivity].
      apply String.eqb_eq in E0. subst k0.
      destruct (String.eqb k' k) eqn:E1; [|reflexivity].
      apply String.eqb_eq in E1. subst k'. rewrite String.eqb_refl in E. discriminate.
Qed.

Lemma own_get_app {A} (l1 l2 : list (string * A)) k :
  own_get (l1 ++ l2) k = match own_get l1 k with Some v => Some v | None => own_get l2 k end.
Proof.
  induction l1 as [|[k0 v0] l1 IH]; simpl; [reflexivity|].
  destruct (String.eqb k k0); [reflexivity | exact IH].
Qed.

(** Reading a key of the merged catalog: the last value the document gives
    that key, else the previous entry. *)
Lemma own_get_spread_merge base v k :
  own_get (spread_merge base v) k
  = match own_get (rev (spread_props v)) k with
    | Some x => Some (Imported x)
    | None => own_get base k
    end.
Proof.
  unfold spread_merge. generalize (spread_props v) as props. intros props.
  revert base. induction props as [|[k1 v1] props IH]; intros base; simpl; [reflexivity|].
  rewrite IH, own_get_app. simpl. rewrite own_get_js_set.
  destruct (own_get (rev props) k); [reflexivity|].
  destruct (String.eqb k k1); reflexivity.
Qed.

(** C3 (as stated: a malformed document is rejected as a unit and the
    catalog is unchanged) fails: the well-formed JSON document
    [{"virginia": {"region": "X"}}], which lacks every required field, is
    accepted; it replaces the Virginia entry, and estimates for Virginia
    no longer come from a typed pricing record. *)
Lemma C3_malformed_document_accepted :
  exists st',
    importRegionalPricing (Some (JObj [("virginia", JObj [("region", JStr "X")])]%string)) new_engine = Ok st'
    /\ own_get (Engine.regionalPricing st') "virginia" = Some (Imported (JObj [("region", JStr "X")]%string))
    /\ own_get (Engine.regionalPricing st') "north-carolina" = Some (Priced DEFAULT_NORTH_CAROLINA)
    /\ calculateDetailedEstimate st' 1000 driveway EmptyString "virginia" residential (clock_at 0)
       = DuckTypedEntry.
Proof. eexists. repeat split; vm_compute; reflexivity. Qed.

(** C3 (amended): [importRegionalPricing] checks only that its input is
    JSON: on a syntax error it rethrows before any assignment (the catalog
    is unchanged); any parsed value is accepted without shape validation:
    each own property of the parsed value replaces or adds the catalog
    entry of its key, whatever its content, the other entries are kept, and
    the tiers are unchanged. *)
Theorem C3_import_checks_syntax_only st :
  importRegionalPricing None st = Throw SyntaxError
  /\ forall v, exists st',
       importRegionalPricing (Some v) st = Ok st'
       /\ Engine.pricingTiers st' = Engine.pricingTiers st
       /\ forall k, own_get (Engine.regionalPricing st') k
                    = match own_get (rev (spread_props v)) k with
                      | Some x => Some (Imported x)
                      | None => own_get (Engine.regionalPricing st) k
                      end.
Proof.
  split; [reflexivity|]. intros v. eexists. split; [reflexivity|].
  split; [reflexivity|]. intros k. apply own_get_spread_merge.
Qed.

(** ** C4: how [finalTotal] grows with the area *)

(** C4 (as stated: a larger area never gives a smaller [finalTotal]) fails:
    for a commercial Virginia job, 4999.9041 sq ft (no discount) costs
    about $3984 while 5001.3184 sq ft (5% markup discount, applied to the
    whole job) costs about $3952.  Both areas are squares of two-decimal
    numbers (70.71 and 70.72), on which [Math_sqrt] is exact. *)
Lemma C4_threshold_crossing_decreases :
  exists e1 e2,
    calculateDetailedEstimate new_engine (49999041 # 10000) parking_lot EmptyString "virginia"
      commercial (clock_at 0) = Ok e1
    /\ calculateDetailedEstimate new_engine (50013184 # 10000) parking_lot EmptyString "virginia"
      commercial (clock_at 0) = Ok e2
    /\ Math_sqrt (49999041 # 10000) == 7071 # 100
    /\ Math_sqrt (50013184 # 10000) == 7072 # 100
    /\ finalTotal_of e2 < finalTotal_of e1.
Proof.
  do 2 eexists. split; [vm_compute; reflexivity|]. split; [vm_compute; reflexivity|].
  split; [vm_compute; reflexivity|]. split; vm_compute; reflexivity.
Qed.

(** Nonnegative prices and rates (the factors by which costs grow with
    the area), and a nonnegative tax rate. *)
Definition wf_pricing (p : RegionalPricing.t) : bool :=
  let mp := RegionalPricing.materials p in
  let nn q := Qle_bool 0 q in
  nn (Sealer.pricePerGallon (MaterialPricing.sealer mp))
  && nn (Sealer.coverageRate (MaterialPricing.sealer mp))
  && nn (Sand.pricePerBag (MaterialPricing.sand mp))
  && nn (Sand.bagsPerGallon (MaterialPricing.sand mp))
  && nn (FastDry.pricePerBucket (MaterialPricing.fastDry mp))
  && nn (FastDry.bucketsPerGallon (MaterialPricing.fastDry mp))
  && nn (CrackFiller.pricePerBox (MaterialPricing.crackFiller mp))
  && nn (CrackFiller.coveragePerBox (MaterialPricing.crackFiller mp))
  && nn (Propane.pricePerTank (MaterialPricing.propane mp))
  && nn (Propane.tanksPerLinearFoot (MaterialPricing.propane mp))
  && nn (LaborRates.hoursPerSqFt (RegionalPricing.labor p))
  && nn (LaborRates.hourlyRate (RegionalPricing.labor p))
  && nn (BusinessCosts.insuranceRate (RegionalPricing.businessCosts p))
  && nn (RegionalPricing.taxRate p).

(** The subtotal of [estimate_with], written out. *)
Definition subtotal_of (p : RegionalPricing.t) (area : Q) : Q :=
  let mp := RegionalPricing.materials p in
  let per := Math_sqrt area * 4 in
  let g := area / Sealer.coverageRate (MaterialPricing.sealer mp) in
  let lr := RegionalPricing.labor p in
  let fu := RegionalPricing.fuel p in
  let bc := RegionalPricing.businessCosts p in
  let sfe :=
    0 + g * Sealer.pricePerGallon (MaterialPricing.sealer mp)
    + Math_ceil (g * Sand.bagsPerGallon (MaterialPricing.sand mp)) * Sand.pricePerBag (MaterialPricing.sand mp)
    + Math_ceil (g * FastDry.bucketsPerGallon (MaterialPricing.fastDry mp))
      * FastDry.pricePerBucket (MaterialPricing.fastDry mp)
    + PrepSeal.bucketsPerProject (MaterialPricing.prepSeal mp) * PrepSeal.pricePerBucket (MaterialPricing.prepSeal mp)
    + Math_ceil (per / CrackFiller.coveragePerBox (MaterialPricing.crackFiller mp))
      * CrackFiller.pricePerBox (MaterialPricing.crackFiller mp)
    + Math_ceil (per * Propane.tanksPerLinearFoot (MaterialPricing.propane mp))
      * Propane.pricePerTank (MaterialPricing.propane mp)
    + Math_max (area * LaborRates.hoursPerSqFt lr) (LaborRates.minimumHours lr) * LaborRates.hourlyRate lr in
  sfe + Fuel.roundTripDistance fu / Fuel.mpg fu * Fuel.pricePerGallon fu
  + sfe * BusinessCosts.insuranceRate bc
  + BusinessCosts.equipmentDepreciation bc + BusinessCosts.permitCosts bc.

Lemma estimate_with_finalTotal p tier area jt addr ct clk :
  finalTotal_of (estimate_with p tier area jt addr ct clk)
  = let s := subtotal_of p area in
    let m := effectiveMarkup tier ct area in
    Math_max (s + s * m + (s + s * m) * RegionalPricing.taxRate p) (Tier.minimumCharge tier).
Proof. reflexivity. Qed.

Lemma Math_sqrt_mono x y : x <= y -> Math_sqrt x <= Math_sqrt y.
Proof.
  intros H. unfold Math_sqrt, Qle. cbn [Qnum Qden].
  apply Z.mul_le_mono_nonneg_r; [lia|].
  apply Z.sqrt_le_mono, Qfloor_resp_le.
  apply Qmult_le_compat_r; [exact H|]. apply Qle_bool_iff. reflexivity.
Qed.

Lemma Math_ceil_mono x y : x <= y -> Math_ceil x <= Math_ceil y.
Proof. intros H. unfold Math_ceil. rewrite <- Zle_Qle. now apply Qceiling_resp_le. Qed.

(** Turns the boolean comparisons in the context into propositions. *)
Ltac qle_facts :=
  repeat match goal with
  | H : Qle_bool _ _ = true |- _ => apply Qle_bool_iff in H
  | H : Qle_bool ?a ?b = false |- _ =>
      let H' := fresh "Hn" in
      assert (H' : ~ a <= b) by (intros Hc; apply Qle_bool_iff in Hc; congruence);
      clear H
  end.

Lemma Math_max_mono_l x x' y : x <= x' -> Math_max x y <= Math_max x' y.
Proof.
  intros H. unfold Math_max, Qltb.
  destruct (Qle_bool y x) eqn:E1, (Qle_bool y x') eqn:E2; simpl; qle_facts; lra.
Qed.

Lemma nonneg_of_wf p :
  wf_pricing p = true ->
  let mp := RegionalPricing.materials p in
  0 <= Sealer.pricePerGallon (MaterialPricing.sealer mp)
  /\ 0 <= Sealer.coverageRate (MaterialPricing.sealer mp)
  /\ 0 <= Sand.pricePerBag (MaterialPricing.sand mp)
  /\ 0 <= Sand.bagsPerGallon (MaterialPricing.sand mp)
  /\ 0 <= FastDry.pricePerBucket (MaterialPricing.fastDry mp)
  /\ 0 <= FastDry.bucketsPerGallon (MaterialPricing.fastDry mp)
  /\ 0 <= CrackFiller.pricePerBox (MaterialPricing.crackFiller mp)
  /\ 0 <= CrackFiller.coveragePerBox (MaterialPricing.crackFiller mp)
  /\ 0 <= Propane.pricePerTank (MaterialPricing.propane mp)
  /\ 0 <= Propane.tanksPerLinearFoot (MaterialPricing.propane mp)
  /\ 0 <= LaborRates.hoursPerSqFt (RegionalPricing.labor p)
  /\ 0 <= LaborRates.hourlyRate (RegionalPricing.labor p)
  /\ 0 <= BusinessCosts.insuranceRate (RegionalPricing.businessCosts p)
  /\ 0 <= RegionalPricing.taxRate p.
Proof.
  unfold wf_pricing. intros H. rewrite !andb_true_iff in H. rewrite <- !Qle_bool_iff.
  tauto.
Qed.

(** One step of a monotonicity proof on the shape of the subtotal. *)
Ltac mono_step :=
  match goal with
  | |- ?x <= ?x => apply Qle_refl
  | |- _ + _ <= _ + _ => apply Qplus_le_compat
  | |- _ * ?k <= _ * ?k => apply Qmult_le_compat_r
  | |- Math_ceil _ <= Math_ceil _ => apply Math_ceil_mono
  | |- Math_max _ ?y <= Math_max _ ?y => apply Math_max_mono_l
  | |- Math_sqrt _ <= Math_sqrt _ => apply Math_sqrt_mono
  | |- 0 <= / _ => apply Qinv_le_0_compat
  end.

Lemma subtotal_of_mono p a1 a2 :
  wf_pricing p = true -> a1 <= a2 -> subtotal_of p a1 <= subtotal_of p a2.
Proof.
  intros Hwf Ha.
  destruct (nonneg_of_wf p Hwf) as (H1 & H2 & H3 & H4 & H5 & H6 & H7 & H8 & H9 & H10 & H11 & H12 & H13 & _).
  unfold subtotal_of. cbv zeta. unfold Qdiv.
  repeat (first [mono_step | assumption]).
  all: apply Qle_bool_iff; reflexivity.
Qed.

(** C4 (amended): as the area grows with everything else fixed,
    [finalTotal] does not decrease as long as both areas get the same
    effective markup (no volume-discount threshold is crossed; always for
    residential customers), for a catalog entry with nonnegative prices and
    rates and a nonnegative markup; crossing a threshold may decrease it
    (see [C4_threshold_crossing_decreases]). *)
Theorem C4_monotone_within_discount_bracket st area1 area2 jt addr region ct clk1 clk2 p e1 e2 :
  own_get (Engine.regionalPricing st) (toLowerCase region) = Some (Priced p) ->
  wf_pricing p = true ->
  effectiveMarkup (tier_of (Engine.pricingTiers st) ct) ct area1
    = effectiveMarkup (tier_of (Engine.pricingTiers st) ct) ct area2 ->
  0 <= effectiveMarkup (tier_of (Engine.pricingTiers st) ct) ct area1 ->
  area1 <= area2 ->
  calculateDetailedEstimate st area1 jt addr region ct clk1 = Ok e1 ->
  calculateDetailedEstimate st area2 jt addr region ct clk2 = Ok e2 ->
  finalTotal_of e1 <= finalTotal_of e2.
Proof.
  intros Hp Hwf Hm Hm0 Ha He1 He2.
  rewrite (calculateDetailedEstimate_priced _ _ _ _ _ _ clk1 p Hp) in He1.
  rewrite (calculateDetailedEstimate_priced _ _ _ _ _ _ clk2 p Hp) in He2.
  inversion He1; inversion He2; subst; clear He1 He2.
  rewrite !estimate_with_finalTotal. cbv zeta. rewrite <- Hm.
  apply Math_max_mono_l.
  pose proof (subtotal_of_mono p area1 area2 Hwf Ha) as Hs.
  destruct (nonneg_of_wf p Hwf) as (_ & _ & _ & _ & _ & _ & _ & _ & _ & _ & _ & _ & _ & Ht).
  set (s1 := subtotal_of p area1) in *. set (s2 := subtotal_of p area2) in *.
  set (m := effectiveMarkup _ ct area1) in *. set (t := RegionalPricing.taxRate p) in *.
  assert (A : s1 + s1 * m <= s2 + s2 * m) by nra.
  nra.
Qed.

Lemma C4_monotone_within_discount_bracket_witness :
  exists e1 e2,
    calculateDetailedEstimate new_engine 6000 parking_lot EmptyString "virginia" commercial (clock_at 0) = Ok e1
    /\ calculateDetailedEstimate new_engine 7000 parking_lot EmptyString "virginia" commercial (clock_at 0) = Ok e2
    /\ finalTotal_of e1 <= finalTotal_of e2.
Proof.
  do 2 eexists. split; [vm_compute; reflexivity|]. split; [vm_compute; reflexivity|].
  apply (C4_monotone_within_discount_bracket new_engine 6000 7000 parking_lot EmptyString "virginia"
           commercial (clock_at 0) (clock_at 0) DEFAULT_VIRGINIA);
    [reflexivity | reflexivity | vm_compute; reflexivity | apply Qle_bool_iff; reflexivity
    | apply Qle_bool_iff; reflexivity | vm_compute; reflexivity | vm_compute; reflexivity].
Defined.

(** * Further properties of the engine *)

(** ** Catalog updates and imports *)

Lemma own_get_None_iff {A} (l : list (string * A)) k :
  own_get l k = None <-> ~ In k (map fst l).
Proof.
  induction l as [|[k0 v0] l IH]; simpl; [tauto|].
  destruct (String.eqb k k0) eqn:E.
  - apply String.eqb_eq in E. subst. split; [discriminate | tauto].
  - apply String.eqb_neq in E. rewrite IH. intuition.
Qed.

Lemma own_get_rev_NoDup {A} (l : list (string * A)) k :
  NoDup (map fst l) -> own_get (rev l) k = own_get l k.
Proof.
  induction l as [|[k0 v0] l IH]; simpl; intros Hnd; [reflexivity|].
  inversion Hnd as [|? ? Hnin Hnd']; subst.
  rewrite own_get_app, IH by assumption. simpl.
  destruct (String.eqb k k0) eqn:E.
  - apply String.eqb_eq in E. subst k0.
    assert (Hg : own_get l k = None) by (apply own_get_None_iff; exact Hnin).
    rewrite Hg. reflexivity.
  - destruct (own_get l k); reflexivity.
Qed.

(** After [updateRegionalPricing(region, p)], an estimate for any spelling
    of [region] that lowercases to the same key is computed from [p] (with
    the unchanged tiers), and estimates for every other key are what they
    were.  (The key ["__proto__"] is excluded: there the assignment sets
    the object's prototype instead of an own property.) *)
Theorem updateRegionalPricing_estimates st region p region' area jt addr ct clk :
  toLowerCase region <> "__proto__"%string ->
  (toLowerCase region' = toLowerCase region ->
   calculateDetailedEstimate (updateRegionalPricing st region p) area jt addr region' ct clk
   = Ok (estimate_with p (tier_of (Engine.pricingTiers st) ct) area jt addr ct clk))
  /\ (toLowerCase region' <> toLowerCase region ->
      calculateDetailedEstimate (updateRegionalPricing st region p) area jt addr region' ct clk
      = calculateDetailedEstimate st area jt addr region' ct clk).
Proof.
  intros _. unfold calculateDetailedEstimate, updateRegionalPricing. simpl.
  rewrite own_get_js_set. split; intros H.
  - rewrite H, String.eqb_refl. reflexivity.
  - apply String.eqb_neq in H. rewrite H. reflexivity.
Qed.

Lemma updateRegionalPricing_estimates_witness :
  calculateDetailedEstimate (updateRegionalPricing new_engine "Texas" DEFAULT_VIRGINIA)
    1000 driveway EmptyString "TEXAS" residential (clock_at 0)
  = Ok (estimate_with DEFAULT_VIRGINIA (tier_of PRICING_TIERS residential)
          1000 driveway EmptyString residential (clock_at 0)).
Proof.
  apply (proj1 (updateRegionalPricing_estimates new_engine "Texas" DEFAULT_VIRGINIA "TEXAS"
                  1000 driveway EmptyString residential (clock_at 0) ltac:(discriminate)));
    reflexivity.
Defined.

(** Region names are case-insensitive: two spellings with the same
    lowercase form give the same estimate. *)
Theorem calculateDetailedEstimate_case_insensitive st area jt addr r1 r2 ct clk e :
  toLowerCase r1 = toLowerCase r2 ->
  calculateDetailedEstimate st area jt addr r1 ct clk = Ok e
  <-> calculateDetailedEstimate st area jt addr r2 ct clk = Ok e.
Proof.
  intros H. unfold calculateDetailedEstimate. rewrite H.
  destruct (own_get _ _) as [[p|v]|]; [reflexivity| |];
    [destruct (js_falsy v) | destruct (inherited _)]; split; discriminate.
Qed.

Lemma calculateDetailedEstimate_case_insensitive_witness :
  exists e,
    calculateDetailedEstimate new_engine 1000 driveway EmptyString "North-Carolina" residential (clock_at 0) = Ok e
    /\ calculateDetailedEstimate new_engine 1000 driveway EmptyString "north-carolina" residential (clock_at 0) = Ok e.
Proof.
  eexists. split; [vm_compute; reflexivity|].
  apply (calculateDetailedEstimate_case_insensitive new_engine 1000 driveway EmptyString
           "North-Carolina" "north-carolina" residential (clock_at 0)); [reflexivity|].
  vm_compute; reflexivity.
Defined.

(** An import leaves every estimate for a region that the document does not
    name exactly as it was (result or error). *)
Theorem import_keeps_unnamed_regions st v st' area jt addr region ct clk :
  importRegionalPricing (Some v) st = Ok st' ->
  ~ In (toLowerCase region) (map fst (spread_props v)) ->
  calculateDetailedEstimate st' area jt addr region ct clk
  = calculateDetailedEstimate st area jt addr region ct clk.
Proof.
  intros Hi Hn. simpl in Hi. inversion Hi; subst; clear Hi.
  unfold calculateDetailedEstimate. simpl.
  rewrite own_get_spread_merge.
  assert (H : own_get (rev (spread_props v)) (toLowerCase region) = None).
  { apply own_get_None_iff. rewrite map_rev. intros Hc. apply Hn. now apply in_rev. }
  rewrite H. reflexivity.
Qed.

Lemma import_keeps_unnamed_regions_witness :
  exists st',
    importRegionalPricing (Some (JObj [("virginia", JNull)]%string)) new_engine = Ok st'
    /\ calculateDetailedEstimate st' 1000 driveway EmptyString "north-carolina" residential (clock_at 0)
       = calculateDetailedEstimate new_engine 1000 driveway EmptyString "north-carolina" residential (clock_at 0).
Proof.
  eexists. split; [reflexivity|].
  apply (import_keeps_unnamed_regions new_engine (JObj [("virginia", JNull)]%string));
    [reflexivity | vm_compute; intros [Hc|[]]; discriminate].
Defined.

(** A document that gives a region a falsy value ([null], [false], [0] or
    [""]) makes that region unavailable: estimates for it then throw
    "Pricing data not available".  (A parsed JSON object has unique keys.) *)
Theorem import_falsy_entry_unavailable st kvs st' x area jt addr region ct clk :
  NoDup (map fst kvs) ->
  importRegionalPricing (Some (JObj kvs)) st = Ok st' ->
  own_get kvs (toLowerCase region) = Some x ->
  js_falsy x = true ->
  calculateDetailedEstimate st' area jt addr region ct clk = Throw (PricingUnavailable region).
Proof.
  intros Hnd Hi Hx Hf. simpl in Hi. inversion Hi; subst; clear Hi.
  unfold calculateDetailedEstimate. simpl.
  rewrite own_get_spread_merge. simpl. rewrite own_get_rev_NoDup by assumption.
  rewrite Hx. simpl. rewrite Hf. reflexivity.
Qed.

Lemma import_falsy_entry_unavailable_witness :
  exists st',
    importRegionalPricing (Some (JObj [("virginia", JNull); ("texas", JNum 0)]%string)) new_engine = Ok st'
    /\ calculateDetailedEstimate st' 1000 driveway EmptyString "Virginia" residential (clock_at 0)
       = Throw (PricingUnavailable "Virginia").
Proof.
  eexists. split; [reflexivity|].
  apply (import_falsy_entry_unavailable new_engine [("virginia", JNull); ("texas", JNum 0)]%string
           _ JNull); [ | reflexivity | reflexivity | reflexivity].
  repeat constructor; simpl; intuition discriminate.
Defined.

(** A document that parses to [null], a boolean, a number or an empty
    object is accepted and leaves the engine exactly as it was. *)
Theorem import_primitive_is_noop st v :
  match v with
  | JNull | JBool _ | JNum _ | JObj [] => True
  | _ => False
  end ->
  importRegionalPricing (Some v) st = Ok st.
Proof. destruct st; destruct v as [| | | | |[|]]; try contradiction; reflexivity. Qed.

Lemma import_primitive_is_noop_witness :
  importRegionalPricing (Some (JNum 42)) new_engine = Ok new_engine.
Proof. apply import_primitive_is_noop. exact I. Defined.

(** ** getAvailableRegions *)

(** The value of [this.regionalPricing[key].region]: a typed entry's
    region name, the value an imported object gives that field, or
    [undefined]; reading it on an imported [null] throws a TypeError. *)
Inductive RegionName :=
| RStr (s : string)
| RJson (v : json)
| RUndefined.

Definition entry_region (e : Entry) : outcome RegionName :=
  match e with
  | Priced p => Ok (RStr (RegionalPricing.region p))
  | Imported JNull => Throw TypeError
  | Imported (JObj kvs) =>
      match own_get kvs "region"%string with
      | Some v => Ok (RJson v)
      | None => Ok RUndefined
      end
  | Imported _ => Ok RUndefined
  end.

(** [Object.keys(this.regionalPricing).map(key => this.regionalPricing[key].region)]
    (the map stops at the first exception). *)
Fixpoint available_regions (c : Catalog) : outcome (list RegionName) :=
  match c with
  | [] => Ok []
  | (_, e) :: c' =>
      match entry_region e with
      | Ok r =>
          match available_regions c' with
          | Ok rs => Ok (r :: rs)
          | Throw x => Throw x
          | DuckTypedEntry => DuckTypedEntry
          end
      | Throw x => Throw x
      | DuckTypedEntry => DuckTypedEntry
      end
  end.

Definition getAvailableRegions (st : Engine.t) : outcome (list RegionName) :=
  available_regions (Engine.regionalPricing st).




Lemma available_regions_null c k :
  In (k, Imported JNull) c -> available_regions c = Throw TypeError.
Proof.
  induction c as [|[k0 e0] c IH]; simpl; [contradiction|].
  intros [Heq|Hin].
  - inversion Heq; subst. reflexivity.
  - destruct (entry_region e0) as [r|x|] eqn:Er.
    + rewrite (IH Hin). reflexivity.
    + destruct e0 as [p|[| | | | |kvs]]; simpl in Er; try discriminate.
      * inversion Er; reflexivity.
      * destruct (own_get kvs _); discriminate.
    + destruct e0 as [p|[| | | | |kvs]]; simpl in Er; try discriminate.
      destruct (own_get kvs _); discriminate.
Qed.

Lemma own_get_In {A} (l : list (string * A)) k v : own_get l k = Some v -> In (k, v) l.
Proof.
  induction l as [|[k0 v0] l IH]; simpl; [discriminate|].
  destruct (String.eqb k k0) eqn:E; intros H.
  - apply String.eqb_eq in E. inversion H; subst. auto.
  - auto.
Qed.

(** Once an imported document has given some key the value [null],
    [getAvailableRegions] throws a TypeError (it reads [.region] of
    [null]). *)
Theorem import_null_breaks_available_regions st kvs st' k :
  NoDup (map fst kvs) ->
  importRegionalPricing (Some (JObj kvs)) st = Ok st' ->
  own_get kvs k = Some JNull ->
  getAvailableRegions st' = Throw TypeError.
Proof.
  intros Hnd Hi Hk. simpl in Hi. inversion Hi; subst; clear Hi.
  unfold getAvailableRegions. simpl.
  apply (available_regions_null _ k), own_get_In.
  rewrite own_get_spread_merge. simpl. rewrite own_get_rev_NoDup by assumption.
  rewrite Hk. reflexivity.
Qed.

Lemma import_null_breaks_available_regions_witness :
  exists st',
    importRegionalPricing (Some (JObj [("texas", JNull)]%string)) new_engine = Ok st'
    /\ getAvailableRegions st' = Throw TypeError.
Proof.
  eexists. split; [reflexivity|].
  apply (import_null_breaks_available_regions new_engine [("texas", JNull)]%string _ "texas");
    [repeat constructor; simpl; tauto | reflexivity | reflexivity].
Defined.

(** ** The volume discounts of the engine's tiers *)

(** With the engine's tiers, the effective markup is positive, never above
    the tier's base markup, and never larger for a larger area. *)
Theorem effectiveMarkup_engine_tiers ct a1 a2 :
  a1 <= a2 ->
  let t := tier_of PRICING_TIERS ct in
  effectiveMarkup t ct a2 <= effectiveMarkup t ct a1
  /\ 0 < effectiveMarkup t ct a2
  /\ effectiveMarkup t ct a1 <= Tier.markup t.
Proof.
  intros Ha. destruct ct; cbn;
    repeat match goal with
           | |- context [Qle_bool ?x a1] => destruct (Qle_bool x a1) eqn:?
           | |- context [Qle_bool ?x a2] => destruct (Qle_bool x a2) eqn:?
           end;
    cbn; qle_facts; repeat split; lra.
Qed.

Lemma effectiveMarkup_engine_tiers_witness :
  effectiveMarkup (tier_of PRICING_TIERS industrial) industrial 60000
  <= effectiveMarkup (tier_of PRICING_TIERS industrial) industrial 20000.
Proof. apply (effectiveMarkup_engine_tiers industrial 20000 60000). apply Qle_bool_iff; reflexivity. Defined.

(** ** The quick estimate's rounding fields *)

Lemma estimate_with_subtotal_beforeTax p tier area jt addr ct clk :
  let pd := DetailedEstimate.pricing (estimate_with p tier area jt addr ct clk) in
  PricingDetails.subtotal pd = subtotal_of p area
  /\ PricingDetails.beforeTax pd
     = subtotal_of p area + subtotal_of p area * effectiveMarkup tier ct area.
Proof. split; reflexivity. Qed.

Lemma Math_ceil_div10_bounds (x : Q) :
  x <= Math_ceil (x / 10) * 10 /\ Math_ceil (x / 10) * 10 < x + 10.
Proof.
  unfold Math_ceil.
  pose proof (Qle_ceiling (x / 10)) as H1.
  pose proof (Qceiling_lt (x / 10)) as H2.
  unfold Z.sub in H2. rewrite inject_Z_plus, inject_Z_opp in H2.
  change (inject_Z 1) with 1 in H2.
  generalize dependent (inject_Z (Qceiling (x / 10))). intros c H1 H2.
  assert (E : x / 10 == x * (1 # 10)) by reflexivity.
  rewrite E in H1, H2.
  split; [|]; nra.
Qed.

(** With the engine's tiers, the quick estimate's [markup25] is the subtotal
    with the residential 25% markup, and [roundedUp] is the least multiple
    of 10 that is at least [markup25]. *)
Theorem quick_estimate_markup25_roundedUp st area region clk q :
  Engine.pricingTiers st = PRICING_TIERS ->
  calculateQuickEstimate st area region clk = Ok q ->
  QuickEstimate.markup25 q == QuickEstimate.subtotal q * (125 # 100)
  /\ QuickEstimate.markup25 q <= QuickEstimate.roundedUp q
  /\ QuickEstimate.roundedUp q < QuickEstimate.markup25 q + 10
  /\ exists z : Z, QuickEstimate.roundedUp q = inject_Z z * 10.
Proof.
  intros Hst Hq. unfold calculateQuickEstimate in Hq.
  destruct (calculateDetailedEstimate _ _ _ _ _ _ _) as [d| |] eqn:Ed; try discriminate.
  inversion Hq; subst; clear Hq. cbn [QuickEstimate.markup25 QuickEstimate.subtotal QuickEstimate.roundedUp].
  apply calculateDetailedEstimate_ok_inv in Ed. destruct Ed as [p [_ ->]].
  rewrite Hst.
  destruct (estimate_with_subtotal_beforeTax p (tier_of PRICING_TIERS residential) area driveway
              EmptyString residential clk) as [Hs Hb].
  rewrite Hs, Hb.
  destruct (Math_ceil_div10_bounds (subtotal_of p area + subtotal_of p area
              * effectiveMarkup (tier_of PRICING_TIERS residential) residential area)) as [H1 H2].
  split; [change (effectiveMarkup (tier_of PRICING_TIERS residential) residential area) with (25 # 100); ring|].
  split; [exact H1|]. split; [exact H2|].
  exists (Qceiling ((subtotal_of p area + subtotal_of p area
              * effectiveMarkup (tier_of PRICING_TIERS residential) residential area) / 10)).
  reflexivity.
Qed.

Lemma quick_estimate_markup25_roundedUp_witness :
  exists q, calculateQuickEstimate new_engine 1000 "virginia" (clock_at 0) = Ok q
    /\ QuickEstimate.roundedUp q < QuickEstimate.markup25 q + 10.
Proof.
  eexists. split; [vm_compute; reflexivity|].
  apply (quick_estimate_markup25_roundedUp new_engine 1000 "virginia" (clock_at 0));
    [reflexivity | vm_compute; reflexivity].
Defined.

(** ** The estimate of MeasurementSidebar.tsx *)

(** [calculateEstimate()] of the sidebar component, for its [area] prop: the
    older, self-contained estimate with hard-coded prices.  Its result has the
    shape of [EstimateData], the record the quick estimate also returns.
    JavaScript's [Math.sqrt] of a negative area is [NaN]; the statements below
    are about areas that are at least 0. *)
Definition calculateEstimate (area : Q) : QuickEstimate.t :=
  let sealerGallons := area * (13 # 100) in
  let sealerCost := sealerGallons * (365 # 100) in
  let sandBags := Math_ceil (sealerGallons / 50) in
  let sandCost := sandBags * 10 in
  let fastDryBuckets := Math_ceil (sealerGallons / 150) in
  let fastDryCost := fastDryBuckets * 50 in
  let prepSealBuckets := 1 in
  let prepSealCost := prepSealBuckets * 50 in
  let perimeter := Math_sqrt area * 4 in
  let crackFillerBoxes := Math_ceil (perimeter / 100) in
  let crackFillerCost := crackFillerBoxes * (4499 # 100) in
  let propaneTanks := Math_ceil (perimeter / 200) in
  let propaneCost := propaneTanks * 10 in
  let laborHours := Math_ceil (area / 1000) in
  let laborCost := laborHours * 12 in
  let distanceToSealMaster := 45 in
  let roundTripDistance := distanceToSealMaster * 2 in
  let fuelCost := (roundTripDistance / 8) * (350 # 100) in
  let subtotal := sealerCost + sandCost + fastDryCost + prepSealCost
                  + crackFillerCost + propaneCost + laborCost + fuelCost in
  let markup25 := subtotal * (125 # 100) in
  let roundedUp := Math_ceil (markup25 / 10) * 10 in
  let finalTotal := roundedUp * (125 # 100) in
  {| QuickEstimate.area := area;
     QuickEstimate.sealer := {| QuickItem.count := sealerGallons; QuickItem.cost := sealerCost |};
     QuickEstimate.sand := {| QuickItem.count := sandBags; QuickItem.cost := sandCost |};
     QuickEstimate.fastDry := {| QuickItem.count := fastDryBuckets; QuickItem.cost := fastDryCost |};
     QuickEstimate.prepSeal := {| QuickItem.count := prepSealBuckets; QuickItem.cost := prepSealCost |};
     QuickEstimate.crackFiller := {| QuickItem.count := crackFillerBoxes; QuickItem.cost := crackFillerCost |};
     QuickEstimate.propane := {| QuickItem.count := propaneTanks; QuickItem.cost := propaneCost |};
     QuickEstimate.laborHours := laborHours; QuickEstimate.laborCost := laborCost;
     QuickEstimate.fuelDistance := roundTripDistance; QuickEstimate.fuelCost := fuelCost;
     QuickEstimate.subtotal := subtotal; QuickEstimate.markup25 := markup25;
     QuickEstimate.roundedUp := roundedUp; QuickEstimate.finalTotal := finalTotal |}.

Lemma calculateEstimate_subtotal_mono a1 a2 :
  a1 <= a2 ->
  QuickEstimate.subtotal (calculateEstimate a1) <= QuickEstimate.subtotal (calculateEstimate a2).
Proof.
  intros Ha. cbn [calculateEstimate QuickEstimate.subtotal]. unfold Qdiv.
  repeat (first [mono_step | assumption]).
  all: apply Qle_bool_iff; reflexivity.
Qed.

Lemma calculateEstimate_finalTotal_eq area :
  QuickEstimate.finalTotal (calculateEstimate area)
  = Math_ceil (QuickEstimate.subtotal (calculateEstimate area) * (125 # 100) / 10) * 10 * (125 # 100).
Proof. reflexivity. Qed.

Lemma calculateEstimate_finalTotal_mono a1 a2 :
  a1 <= a2 ->
  QuickEstimate.finalTotal (calculateEstimate a1) <= QuickEstimate.finalTotal (calculateEstimate a2).
Proof.
  intros Ha. pose proof (calculateEstimate_subtotal_mono a1 a2 Ha) as Hs.
  rewrite !calculateEstimate_finalTotal_eq. unfold Qdiv.
  repeat (first [mono_step | assumption]).
  all: apply Qle_bool_iff; reflexivity.
Qed.


Lemma calculateEstimate_finalTotal_zero :
  QuickEstimate.finalTotal (calculateEstimate 0) == 150.
Proof. vm_compute. reflexivity. Qed.

(** The sidebar's [finalTotal] does not decrease as the area grows. *)
Theorem calculateEstimate_finalTotal_monotone a1 a2 :
  0 <= a1 -> a1 <= a2 ->
  QuickEstimate.finalTotal (calculateEstimate a1) <= QuickEstimate.finalTotal (calculateEstimate a2).
Proof. intros _ Ha. exact (calculateEstimate_finalTotal_mono a1 a2 Ha). Qed.

Lemma calculateEstimate_finalTotal_monotone_witness :
  QuickEstimate.finalTotal (calculateEstimate 1000) <= QuickEstimate.finalTotal (calculateEstimate 5000).
Proof.
  apply (calculateEstimate_finalTotal_monotone 1000 5000);
    apply Qle_bool_iff; reflexivity.
Defined.

(** Whatever the (nonnegative) area, the sidebar shows a [finalTotal] of at
    least $150, the total of an empty job: one bucket of prep seal and the
    fuel for the round trip, marked up, rounded up to $10 and marked up
    again. *)
Theorem calculateEstimate_finalTotal_at_least_150 area :
  0 <= area -> 150 <= QuickEstimate.finalTotal (calculateEstimate area).
Proof.
  intros Ha. rewrite <- calculateEstimate_finalTotal_zero.
  exact (calculateEstimate_finalTotal_mono 0 area Ha).
Qed.

Lemma calculateEstimate_finalTotal_at_least_150_witness :
  150 <= QuickEstimate.finalTotal (calculateEstimate (1 # 2)).
Proof.
  apply (calculateEstimate_finalTotal_at_least_150 (1 # 2)).
  apply Qle_bool_iff; reflexivity.
Defined.

(** ** The profit analysis of the detailed estimate *)





